(** * cinder/volume/flows/common.py

    A shallow embedding of the taskflow log listener and of the volume
    status helpers of [cinder.volume.flows.common], with the properties
    the specification states about them.

    Python values are a small inductive universe, dictionaries received
    from callers are finite maps, dictionary literals built in place are
    association lists in source order, and effects (log calls, store calls,
    raised exceptions) are threaded through a state-and-exception monad. *)

From Stdlib Require Import ZArith String Ascii List Bool Lia.
From stdpp Require Import base option gmap strings list.

Local Open Scope string_scope.
Local Open Scope Z_scope.

(** ** Python values *)

(** The text of an object that is neither [None], a string nor a dict:
    what [str()] and [repr()] give for it. *)
Record ObjText := { str_text : string; repr_text : string }.

(** The (type, value, traceback) triple a [misc.Failure] holds in
    [exc_info] when it has one. *)
Record ExcInfo := {
  exc_type : string;
  exc_value : string;
  exc_traceback : list string
}.

#[warnings="-register-all"]
Inductive pyval :=
| VNone
| VStr (s : string)
| VDict (items : list (string * pyval))
| VFailure (exc_info : option ExcInfo) (text : ObjText)
    (* a misc.Failure; [exc_info] is [None] for one built without a triple *)
| VObj (text : ObjText).

(** ** Exceptions and outcomes *)

Inductive exn :=
| KeyError (key : string)
| AttributeError (attr : string)
| ValueError (msg : string)
| TypeError (msg : string)
| CinderException (cls : string) (msg : string)  (* the class or a subclass *)
| OtherException (cls : string) (msg : string).

(** [isinstance(e, exception.CinderException)] *)
Definition is_CinderException (e : exn) : bool :=
  match e with
  | CinderException _ _ => true
  | _ => false
  end.

Definition is_AttributeError (e : exn) : bool :=
  match e with
  | AttributeError _ => true
  | _ => false
  end.

Inductive outcome (A : Type) :=
| Return (a : A)
| Raise (e : exn).
Arguments Return {A} a.
Arguments Raise {A} e.

(** ** [str()] and [repr()] *)

Definition hex_digit (n : nat) : ascii :=
  match String.get n "0123456789abcdef" with
  | Some c => c
  | None => "0"%char
  end.

Definition dquote : ascii := ascii_of_nat 34.
Definition squote : ascii := "'"%char.
Definition backslash : ascii := "\"%char.

Fixpoint string_mem (c : ascii) (s : string) : bool :=
  match s with
  | EmptyString => false
  | String d s' => Ascii.eqb c d || string_mem c s'
  end.

(** One character of the repr of a byte string, inside [quote]. *)
Definition repr_char (quote c : ascii) : string :=
  let n := nat_of_ascii c in
  if Ascii.eqb c quote || Ascii.eqb c backslash then String backslash (String c EmptyString)
  else if Nat.eqb n 9 then "\t"
  else if Nat.eqb n 10 then "\n"
  else if Nat.eqb n 13 then "\r"
  else if Nat.ltb n 32 || Nat.leb 127 n then
    String backslash (String "x" (String (hex_digit (Nat.div n 16))
                                    (String (hex_digit (Nat.modulo n 16)) EmptyString)))
  else String c EmptyString.

Fixpoint repr_chars (quote : ascii) (s : string) : string :=
  match s with
  | EmptyString => EmptyString
  | String c s' => repr_char quote c +:+ repr_chars quote s'
  end.

(** [repr(s)] for a string: single quotes, unless the string holds a single
    quote and no double quote. *)
Definition repr_str (s : string) : string :=
  let quote := if string_mem squote s && negb (string_mem dquote s)
               then dquote else squote in
  String quote (repr_chars quote s +:+ String quote EmptyString).

Fixpoint py_repr (v : pyval) : string :=
  match v with
  | VNone => "None"
  | VStr s => repr_str s
  | VDict items =>
      let fix go (l : list (string * pyval)) : string :=
        match l with
        | [] => EmptyString
        | [(k, x)] => repr_str k +:+ ": " +:+ py_repr x
        | (k, x) :: l' => repr_str k +:+ ": " +:+ py_repr x +:+ ", " +:+ go l'
        end in
      "{" +:+ go items +:+ "}"
  | VFailure _ t => repr_text t
  | VObj t => repr_text t
  end.

(** [str(v)], also what the [%s] conversion and [six.text_type] give. *)
Definition py_str (v : pyval) : string :=
  match v with
  | VStr s => s
  | VFailure _ t => str_text t
  | VObj t => str_text t
  | _ => py_repr v
  end.

(** ** [template % mapping] *)

(** Dictionary literals, in source order. *)
Definition dict_literal := list (string * pyval).

Fixpoint dict_get (d : dict_literal) (k : string) : option pyval :=
  match d with
  | [] => None
  | (k', v) :: d' => if String.eqb k k' then Some v else dict_get d' k
  end.

(** Where the scan of a template stands: in literal text, just after a
    [%], inside the parentheses of a key, or after the key, at the
    conversion character. *)
Inductive fmt_state :=
| FLit
| FPct
| FKey (key : string)
| FConv (key : string).

Definition outcome_map {A B} (f : A -> B) (o : outcome A) : outcome B :=
  match o with
  | Return a => Return (f a)
  | Raise e => Raise e
  end.

Fixpoint pct_format_from (st : fmt_state) (tmpl : string) (mapping : dict_literal)
  : outcome string :=
  match tmpl with
  | EmptyString =>
      match st with
      | FLit => Return EmptyString
      | _ => Raise (ValueError "incomplete format")
      end
  | String c rest =>
      match st with
      | FLit =>
          if Ascii.eqb c "%"%char then pct_format_from FPct rest mapping
          else outcome_map (String c) (pct_format_from FLit rest mapping)
      | FPct =>
          if Ascii.eqb c "("%char then pct_format_from (FKey EmptyString) rest mapping
          else if Ascii.eqb c "%"%char
               then outcome_map (String c) (pct_format_from FLit rest mapping)
               else Raise (ValueError "unsupported format character")
      | FKey key =>
          if Ascii.eqb c ")"%char then pct_format_from (FConv key) rest mapping
          else pct_format_from (FKey (key +:+ String c EmptyString)) rest mapping
      | FConv key =>
          if Ascii.eqb c "s"%char then
            match dict_get mapping key with
            | Some v => outcome_map (String.append (py_str v))
                                    (pct_format_from FLit rest mapping)
            | None => Raise (KeyError key)
            end
          else Raise (ValueError "unsupported format character")
      end
  end.

(** [tmpl % mapping], for the [%(key)s] directives the module uses. *)
Definition pct_format (tmpl : string) (mapping : dict_literal) : outcome string :=
  pct_format_from FLit tmpl mapping.

(** [_()], the gettext hook: with no catalog installed it gives back the
    message id. *)
Definition gettext (msg : string) : string := msg.

(** [tuple(x)] on the [exc_info] of a failure: [None] is not iterable. *)
Definition py_tuple (x : option ExcInfo) : outcome ExcInfo :=
  match x with
  | Some i => Return i
  | None => Raise (TypeError "'NoneType' object is not iterable")
  end.

(** ** Effects: log calls, store calls and exceptions *)

Module base_logging.
(** The severities of Python's [logging] module. *)
Definition DEBUG : Z := 10.
Definition WARNING : Z := 30.
Definition ERROR : Z := 40.
End base_logging.

(** What a log call carries as [exc_info]: an explicit triple, or the
    exception being handled when the call is made. *)
Inductive ExcAttached :=
| ExcTuple (i : ExcInfo)
| ExcCurrent (e : exn).

(** One call of a logger's [log] (or of [debug], [warn], [exception],
    which are [log] at a fixed severity). *)
Record LogRecord := {
  rec_level : Z;
  rec_msg : string;
  rec_exc_info : option ExcAttached
}.

(** One call of [db.volume_update(context, volume_id, values)]. *)
Record StoreCall := {
  call_context : pyval;
  call_volume_id : pyval;
  call_values : dict_literal
}.

Record World := {
  logged : list LogRecord;
  store_calls : list StoreCall
}.

Definition M (A : Type) : Type := World -> outcome A * World.

#[global] Instance M_ret : MRet M := fun A a w => (Return a, w).
#[global] Instance M_bind : MBind M := fun A B f m w =>
  match m w with
  | (Return a, w') => f a w'
  | (Raise e, w') => (Raise e, w')
  end.

Definition raise {A} (e : exn) : M A := fun w => (Raise e, w).

(** A computation with no effect but its outcome. *)
Definition lift {A} (o : outcome A) : M A := fun w => (o, w).

(** [try: body except <catches>: handler]. *)
Definition try_except {A} (body : M A) (catches : exn -> bool) (handler : exn -> M A)
  : M A := fun w =>
  match body w with
  | (Return a, w') => (Return a, w')
  | (Raise e, w') => if catches e then handler e w' else (Raise e, w')
  end.

(** [d[k]] on a dictionary: [KeyError] when the key is missing. *)
Definition getitem (d : gmap string pyval) (k : string) : M pyval :=
  match d !! k with
  | Some v => mret v
  | None => raise (KeyError k)
  end.

(** [d.get(k)]: [None] when the key is missing. *)
Definition dict_get_default (d : gmap string pyval) (k : string) : pyval :=
  default VNone (d !! k).

(** [x in (a, b, ...)] on state tags. *)
Definition tuple_in (x : string) (t : list string) : bool :=
  existsb (String.eqb x) t.

(** *** The logger *)

Record Logger := { isEnabledFor : Z -> bool }.

Definition logger_log (lg : Logger) (level : Z) (msg : string)
    (exc_info : option ExcAttached) : M unit := fun w =>
  (Return tt,
   {| logged := logged w ++ [{| rec_level := level; rec_msg := msg;
                                rec_exc_info := exc_info |}];
      store_calls := store_calls w |}).

Definition logger_warn (lg : Logger) (msg : string) (exc_info : option ExcAttached)
  : M unit := logger_log lg base_logging.WARNING msg exc_info.

Definition logger_debug (lg : Logger) (msg : string) : M unit :=
  logger_log lg base_logging.DEBUG msg None.

(** [lg.exception(msg)]: severity ERROR, with the exception being handled
    attached. *)
Definition logger_exception (lg : Logger) (handled : exn) (msg : string) : M unit :=
  logger_log lg base_logging.ERROR msg (Some (ExcCurrent handled)).

(** *** The store *)

(** The store collaborator: for each call, whether it raises and what. *)
Record Store := { volume_update_raises : StoreCall -> option exn }.

Definition volume_update (db : Store) (context volume_id : pyval) (values : dict_literal)
  : M unit := fun w =>
  let c := {| call_context := context; call_volume_id := volume_id;
              call_values := values |} in
  let w' := {| logged := logged w; store_calls := store_calls w ++ [c] |} in
  match volume_update_raises db c with
  | Some e => (Raise e, w')
  | None => (Return tt, w')
  end.

(** ** taskflow constants *)

Module states.
(** The state tags of [taskflow.states] the module names. *)
Definition FAILURE : string := "FAILURE".
Definition REVERTED : string := "REVERTED".
Definition REVERTING : string := "REVERTING".
Definition RETRYING : string := "RETRYING".
Definition RUNNING : string := "RUNNING".
Definition SUCCESS : string := "SUCCESS".
End states.

(** ** DynamicLogListener *)

Record DynamicLogListener := { _logger : Logger }.

Section Listener.

(** [base_listener.FINISH_STATES], fixed by the taskflow engine. *)
Variable FINISH_STATES : list string.

Definition _flow_receiver (self : DynamicLogListener) (state : string)
    (details : gmap string pyval) : M unit :=
  let level := base_logging.DEBUG in
  let level := if tuple_in state [states.FAILURE; states.REVERTED]
               then base_logging.WARNING else level in
  flow_name ← getitem details "flow_name";
  flow_uuid ← getitem details "flow_uuid";
  msg ← lift (pct_format
                (gettext ("Flow '%(flow_name)s' (%(flow_uuid)s) transitioned"
                          +:+ " into state '%(state)s' from state"
                          +:+ " '%(old_state)s'"))
                [("flow_name", flow_name);
                 ("flow_uuid", flow_uuid);
                 ("state", VStr state);
                 ("old_state", dict_get_default details "old_state")]);
  logger_log (_logger self) level msg None.

Definition _task_receiver (self : DynamicLogListener) (state : string)
    (details : gmap string pyval) : M unit :=
  if bool_decide (is_Some (details !! "result")) && tuple_in state FINISH_STATES then
    let result := dict_get_default details "result" in
    match result with
    | VFailure exc_info _ =>
        task_name ← getitem details "task_name";
        task_uuid ← getitem details "task_uuid";
        msg ← lift (pct_format
                      (gettext ("Task '%(task_name)s' (%(task_uuid)s)"
                                +:+ " transitioned into state '%(state)s'"))
                      [("task_name", task_name);
                       ("task_uuid", task_uuid);
                       ("state", VStr state)]);
        exc_info ← lift (py_tuple exc_info);
        logger_warn (_logger self) msg (Some (ExcTuple exc_info))
    | _ =>
        let level := base_logging.DEBUG in
        let level := if String.eqb state states.FAILURE
                     then base_logging.WARNING else level in
        if isEnabledFor (_logger self) base_logging.DEBUG
           || String.eqb state states.FAILURE then
          task_name ← getitem details "task_name";
          task_uuid ← getitem details "task_uuid";
          msg ← lift (pct_format
                        (gettext ("Task '%(task_name)s' (%(task_uuid)s)"
                                  +:+ " transitioned into state '%(state)s'"
                                  +:+ " with result %(result)s"))
                        [("task_name", task_name);
                         ("task_uuid", task_uuid);
                         ("state", VStr state); ("result", result)]);
          logger_log (_logger self) level msg None
        else
          task_name ← getitem details "task_name";
          task_uuid ← getitem details "task_uuid";
          msg ← lift (pct_format
                        (gettext ("Task '%(task_name)s' (%(task_uuid)s)"
                                  +:+ " transitioned into state"
                                  +:+ " '%(state)s'"))
                        [("task_name", task_name);
                         ("task_uuid", task_uuid);
                         ("state", VStr state)]);
          logger_log (_logger self) level msg None
    end
  else
    let level := base_logging.DEBUG in
    let level := if tuple_in state [states.REVERTING; states.RETRYING]
                 then base_logging.WARNING else level in
    task_name ← getitem details "task_name";
    task_uuid ← getitem details "task_uuid";
    msg ← lift (pct_format
                  (gettext ("Task '%(task_name)s' (%(task_uuid)s)"
                            +:+ " transitioned into state '%(state)s'"))
                  [("task_name", task_name);
                   ("task_uuid", task_uuid);
                   ("state", VStr state)]);
    logger_log (_logger self) level msg None.

End Listener.

(** ** make_pretty_name *)

#[global] Instance outcome_ret : MRet outcome := fun A a => Return a.
#[global] Instance outcome_bind : MBind outcome := fun A B f o =>
  match o with
  | Return a => f a
  | Raise e => Raise e
  end.

(** [try: body except <catches>: handler], with no state involved. *)
Definition outcome_try {A} (body : outcome A) (catches : exn -> bool)
    (handler : exn -> outcome A) : outcome A :=
  match body with
  | Return a => Return a
  | Raise e => if catches e then handler e else Raise e
  end.

(** The owner of a bound method: [type_name] is the outcome of reading
    [owner.__class__.__name__], the name or the exception the lookup
    raises. *)
Record Instance := { type_name : outcome string }.

(** [owner.__class__.__name__] *)
Definition class_name (owner : Instance) : outcome string := type_name owner.

(** A callable. [__name__] is the outcome of reading [method.__name__]
    ([AttributeError] for a callable that has none, such as a
    [functools.partial]). [__self__] is [None] when the callable has no
    such attribute, [Some None] when the attribute holds Python's [None],
    [Some (Some o)] when the callable is bound to [o]. *)
Record Callable := {
  __name__ : outcome string;
  __self__ : option (option Instance)
}.

(** [sep.join(pieces)] *)
Definition join (sep : string) (pieces : list string) : string :=
  String.concat sep pieces.

Definition make_pretty_name (method : Callable) : outcome string :=
  name ← __name__ method;
  let meth_pieces := [name] in
  meth_pieces ←
    match __self__ method with
    | Some (Some owner) =>
        outcome_try
          (cls ← class_name owner; mret (cls :: meth_pieces))
          is_AttributeError
          (fun _ => mret meth_pieces)
    | _ => mret meth_pieces
    end;
  mret (join "." meth_pieces).

(** ** The volume status helpers *)

Definition REASON_LENGTH : nat := 128.

(** [v != s] for a string literal [s]. *)
Definition ne_str (v : pyval) (s : string) : bool :=
  match v with
  | VStr t => negb (String.eqb t s)
  | _ => true
  end.

(** [not d] for a value that is [None] or a dictionary. *)
Definition not_dict (d : option (gmap string pyval)) : bool :=
  match d with
  | None => true
  | Some m => Nat.eqb (size m) 0
  end.

Section Helpers.

(** The module's logger, [logging.getLogger(__name__)]. *)
Variable LOG : Logger.

Definition restore_source_status (context : pyval) (db : Store)
    (volume_spec : option (gmap string pyval)) : M unit :=
  match volume_spec with
  | None => mret tt
  | Some spec =>
      if not_dict volume_spec || ne_str (dict_get_default spec "type") "source_vol"
      then mret tt
      else
        source_volid ← getitem spec "source_volid";
        source_status ← getitem spec "source_volstatus";
        try_except
          (msg ← lift (pct_format
                         "Restoring source %(source_volid)s status to %(status)s"
                         [("status", source_status);
                          ("source_volid", source_volid)]);
           logger_debug LOG msg;;
           volume_update db context source_volid [("status", source_status)])
          is_CinderException
          (fun e =>
             msg ← lift (pct_format
                           (gettext ("Failed setting source volume %(source_volid)s back to"
                                     +:+ " its initial %(source_status)s status"))
                           [("source_status", source_status);
                            ("source_volid", source_volid)]);
             logger_exception LOG e msg)
  end.

Definition _clean_reason (reason : pyval) : string :=
  match reason with
  | VNone => "???"
  | _ =>
      let reason := py_str reason in
      if Nat.leb (String.length reason) REASON_LENGTH then reason
      else substring 0 REASON_LENGTH reason +:+ "..."
  end.

(** [reason] is [VNone] when the caller leaves it out. *)
Definition error_out_volume (context : pyval) (db : Store) (volume_id : pyval)
    (reason : pyval) : M unit :=
  let update := [("status", VStr "error")] in
  let reason := _clean_reason reason in
  try_except
    (msg ← lift (pct_format
                   ("Updating volume: %(volume_id)s with %(update)s"
                    +:+ " due to: %(reason)s")
                   [("volume_id", volume_id);
                    ("reason", VStr reason);
                    ("update", VDict update)]);
     logger_debug LOG msg;;
     volume_update db context volume_id update)
    is_CinderException
    (fun e =>
       msg ← lift (pct_format
                     (gettext ("Failed updating volume %(volume_id)s with"
                               +:+ " %(update)s"))
                     [("volume_id", volume_id);
                      ("update", VDict update)]);
       logger_exception LOG e msg).

End Helpers.

(** * What the properties are stated with *)

(** ** Reading the effects *)

(** The world after one more log call. *)
Definition with_log (w : World) (r : LogRecord) : World :=
  {| logged := logged w ++ [r]; store_calls := store_calls w |}.

(** [isinstance(v, misc.Failure)] *)
Definition is_Failure (v : pyval) : bool :=
  match v with
  | VFailure _ _ => true
  | _ => false
  end.

(** Whether [needle] occurs somewhere in [hay]. *)
Fixpoint occurs_in (needle hay : string) : bool :=
  String.prefix needle hay ||
  match hay with
  | EmptyString => false
  | String _ hay' => occurs_in needle hay'
  end.

(** The texts the receivers are expected to emit. *)
Definition task_message (name uuid : pyval) (state : string) : string :=
  "Task '" +:+ py_str name +:+ "' (" +:+ py_str uuid
  +:+ ") transitioned into state '" +:+ state +:+ "'".

Definition task_message_with_result (name uuid : pyval) (state : string)
    (result : pyval) : string :=
  task_message name uuid state +:+ " with result " +:+ py_str result.

Definition flow_message (name uuid : pyval) (state old_state : string) : string :=
  "Flow '" +:+ py_str name +:+ "' (" +:+ py_str uuid
  +:+ ") transitioned into state '" +:+ state
  +:+ "' from state '" +:+ old_state +:+ "'".

(** ** One guarded attempt against the store *)

(** The store call both helpers make: one status field. *)
Definition status_call (context volume_id status : pyval) : StoreCall :=
  {| call_context := context; call_volume_id := volume_id;
     call_values := [("status", status)] |}.

Definition debug_record (msg : string) : LogRecord :=
  {| rec_level := base_logging.DEBUG; rec_msg := msg; rec_exc_info := None |}.

Definition exception_record (e : exn) (msg : string) : LogRecord :=
  {| rec_level := base_logging.ERROR; rec_msg := msg;
     rec_exc_info := Some (ExcCurrent e) |}.

(** The world after the debug line and the store call. *)
Definition attempted (w : World) (debug_msg : string) (c : StoreCall) : World :=
  {| logged := logged w ++ [debug_record debug_msg];
     store_calls := store_calls w ++ [c] |}.

(** One guarded attempt against the store, as both helpers make it. *)
Definition guarded_attempt (db : Store) (c : StoreCall) (debug_msg failed_msg : string)
    (w : World) : outcome unit * World :=
  match volume_update_raises db c with
  | None => (Return tt, attempted w debug_msg c)
  | Some e =>
      if is_CinderException e
      then (Return tt, with_log (attempted w debug_msg c) (exception_record e failed_msg))
      else (Raise e, attempted w debug_msg c)
  end.

Definition update_message (volume_id : pyval) (reason : string) : string :=
  "Updating volume: " +:+ py_str volume_id
  +:+ " with {'status': 'error'} due to: " +:+ reason.

Definition update_failed_message (volume_id : pyval) : string :=
  "Failed updating volume " +:+ py_str volume_id +:+ " with {'status': 'error'}".

Definition restore_message (source_volid source_status : pyval) : string :=
  "Restoring source " +:+ py_str source_volid
  +:+ " status to " +:+ py_str source_status.

Definition restore_failed_message (source_volid source_status : pyval) : string :=
  "Failed setting source volume " +:+ py_str source_volid
  +:+ " back to its initial " +:+ py_str source_status +:+ " status".

(** ** Concrete events and calls *)

Definition world0 : World := {| logged := []; store_calls := [] |}.

Definition quiet_logger : Logger := {| isEnabledFor := fun _ => false |}.
Definition quiet_listener : DynamicLogListener := {| _logger := quiet_logger |}.

(** The finish states of the taskflow release the module was written
    against. *)
Definition finish_states_sample : list string := [states.FAILURE; states.SUCCESS].

Definition sample_exc_info : ExcInfo :=
  {| exc_type := "IOError"; exc_value := "disk full";
     exc_traceback := ["create_volume.py:12"] |}.

(** A failure with its triple, and one rebuilt without it. *)
Definition sample_failure : pyval :=
  VFailure (Some sample_exc_info)
    {| str_text := "Failure: IOError: disk full"; repr_text := "<Failure>" |}.

Definition bare_failure : pyval :=
  VFailure None
    {| str_text := "Failure: IOError: disk full"; repr_text := "<Failure>" |}.

(** A [functools.partial]: no [__name__], no [__self__]. *)
Definition partial_callable : Callable :=
  {| __name__ := Raise (AttributeError "__name__"); __self__ := None |}.

(** A method bound to an owner whose class lookup raises [e]. *)
Definition method_of_failing_owner (e : exn) : Callable :=
  {| __name__ := Return "baz";
     __self__ := Some (Some {| type_name := Raise e |}) |}.

Definition task_details (result : option pyval) : gmap string pyval :=
  let base : gmap string pyval :=
    <["task_name" := VStr "create"]> (<["task_uuid" := VStr "t-1"]> ∅) in
  match result with
  | Some r => <["result" := r]> base
  | None => base
  end.

Definition flow_details : gmap string pyval :=
  <["flow_name" := VStr "volume_create"]> (<["flow_uuid" := VStr "f-1"]> ∅).

Definition sample_context : pyval :=
  VObj {| str_text := "<RequestContext>"; repr_text := "<RequestContext>" |}.

Definition domain_error : exn := CinderException "VolumeNotFound" "vol-1 is gone".
Definition foreign_error : exn := OtherException "IOError" "connection reset".

Definition store_raising (e : exn) : Store :=
  {| volume_update_raises := fun _ => Some e |}.

Definition healthy_store : Store := {| volume_update_raises := fun _ => None |}.

Definition source_spec : gmap string pyval :=
  <["type" := VStr "source_vol"]>
    (<["source_volid" := VStr "vol-0"]>
       (<["source_volstatus" := VStr "available"]> ∅)).

Definition snapshot_spec : gmap string pyval :=
  <["type" := VStr "snap"]> (<["snapshot_id" := VStr "snap-0"]> ∅).

Definition broken_spec : gmap string pyval :=
  <["type" := VStr "source_vol"]> (<["source_volid" := VStr "vol-0"]> ∅).

Definition long_reason : string :=
  string_of_list_ascii (repeat "x"%char 200).

(** Whether the store answers the call [c] with an error of its domain
    category. *)
Definition raises_domain_error (db : Store) (c : StoreCall) : bool :=
  match volume_update_raises db c with
  | Some e => is_CinderException e
  | None => false
  end.

(** * Properties *)

(** ** Values and templates *)

Example py_str_update :
  py_str (VDict [("status", VStr "error")]) = "{'status': 'error'}".
Proof. reflexivity. Qed.

Example pct_format_ex v :
  pct_format "a '%(x)s' b %(y)s" [("x", v); ("y", VNone)]
  = Return ("a '" +:+ py_str v +:+ "' b None").
Proof. reflexivity. Qed.

Lemma getitem_Some d k v w : d !! k = Some v -> getitem d k w = (Return v, w).
Proof. intros H. unfold getitem. now rewrite H. Qed.

Lemma dict_get_default_Some d k v : d !! k = Some v -> dict_get_default d k = v.
Proof. intros H. unfold dict_get_default. now rewrite H. Qed.

Lemma getitem_None d k w : d !! k = None -> getitem d k w = (Raise (KeyError k), w).
Proof. intros H. unfold getitem. now rewrite H. Qed.

Lemma tuple_in_In x t : tuple_in x t = true <-> In x t.
Proof.
  unfold tuple_in. rewrite existsb_exists. split.
  - intros (y & Hy & Heq). apply String.eqb_eq in Heq. now subst.
  - intros H. exists x. split; [assumption | apply String.eqb_refl].
Qed.

Lemma tuple_in_not_In x t : tuple_in x t = false <-> ~ In x t.
Proof.
  rewrite <- tuple_in_In. destruct (tuple_in x t); split; congruence.
Qed.

Lemma tuple_in_pair x a b :
  tuple_in x [a; b] = bool_decide (x = a \/ x = b).
Proof.
  unfold tuple_in. cbn [existsb]. rewrite orb_false_r.
  destruct (String.eqb_spec x a) as [-> | Ha].
  - symmetry. apply bool_decide_eq_true_2. now left.
  - destruct (String.eqb_spec x b) as [-> | Hb]; symmetry.
    + apply bool_decide_eq_true_2. now right.
    + apply bool_decide_eq_false_2. intros [? | ?]; contradiction.
Qed.

Lemma string_app_assoc (a b c : string) : (a +:+ b) +:+ c = a +:+ (b +:+ c).
Proof.
  induction a as [|x a IH]; [reflexivity |].
  change (String x ((a +:+ b) +:+ c) = String x (a +:+ (b +:+ c))).
  now rewrite IH.
Qed.

Lemma string_app_nil_r (a : string) : a +:+ EmptyString = a.
Proof.
  induction a as [|x a IH]; [reflexivity |].
  change (String x (a +:+ EmptyString) = String x a). now rewrite IH.
Qed.

(** The three templates, evaluated on their mappings. *)
Lemma pct_format_task name uuid state :
  pct_format
    (gettext ("Task '%(task_name)s' (%(task_uuid)s)"
              +:+ " transitioned into state '%(state)s'"))
    [("task_name", name); ("task_uuid", uuid); ("state", VStr state)]
  = Return (task_message name uuid state).
Proof. reflexivity. Qed.

Lemma pct_format_task_result name uuid state result :
  pct_format
    (gettext ("Task '%(task_name)s' (%(task_uuid)s)"
              +:+ " transitioned into state '%(state)s'"
              +:+ " with result %(result)s"))
    [("task_name", name); ("task_uuid", uuid); ("state", VStr state);
     ("result", result)]
  = Return (task_message_with_result name uuid state result).
Proof.
  transitivity (Return (task_message name uuid state +:+ " with result "
                        +:+ (py_str result +:+ EmptyString))).
  - unfold task_message. rewrite !string_app_assoc. reflexivity.
  - now rewrite string_app_nil_r.
Qed.

Lemma pct_format_flow name uuid state old :
  pct_format
    (gettext ("Flow '%(flow_name)s' (%(flow_uuid)s) transitioned"
              +:+ " into state '%(state)s' from state"
              +:+ " '%(old_state)s'"))
    [("flow_name", name); ("flow_uuid", uuid); ("state", VStr state);
     ("old_state", old)]
  = Return (flow_message name uuid state (py_str old)).
Proof. reflexivity. Qed.

Section ListenerProperties.

Variable FINISH_STATES : list string.
Variable self : DynamicLogListener.

Implicit Types (state : string) (details : gmap string pyval) (w : World).

(** The branch with no result value to show: one record with the plain
    task message, at the given severity and with the given context. *)
Lemma task_plain_emit details state name uuid level exc w :
  details !! "task_name" = Some name ->
  details !! "task_uuid" = Some uuid ->
  (task_name ← getitem details "task_name";
   task_uuid ← getitem details "task_uuid";
   msg ← lift (pct_format
                 (gettext ("Task '%(task_name)s' (%(task_uuid)s)"
                           +:+ " transitioned into state '%(state)s'"))
                 [("task_name", task_name);
                  ("task_uuid", task_uuid);
                  ("state", VStr state)]);
   logger_log (_logger self) level msg exc) w
  = (Return tt,
     with_log w {| rec_level := level;
                   rec_msg := task_message name uuid state;
                   rec_exc_info := exc |}).
Proof.
  intros Hn Hu. unfold mbind, M_bind.
  rewrite (getitem_Some _ _ _ _ Hn), (getitem_Some _ _ _ _ Hu).
  unfold lift. rewrite pct_format_task. reflexivity.
Qed.

(** C1. A task event with a result that is not a failure, in a finish
    state: one record, at WARNING when the state is FAILURE and at DEBUG
    otherwise; its message carries the text of the result exactly when
    the logger answers [isEnabledFor(DEBUG)] with true or the state is
    FAILURE, and is the plain name/uuid/state message otherwise. *)
Theorem task_receiver_plain_value details state name uuid result w :
  details !! "task_name" = Some name ->
  details !! "task_uuid" = Some uuid ->
  details !! "result" = Some result ->
  is_Failure result = false ->
  In state FINISH_STATES ->
  _task_receiver FINISH_STATES self state details w
  = (Return tt,
     with_log w
       {| rec_level := if String.eqb state states.FAILURE
                       then base_logging.WARNING else base_logging.DEBUG;
          rec_msg := if isEnabledFor (_logger self) base_logging.DEBUG
                        || String.eqb state states.FAILURE
                     then task_message_with_result name uuid state result
                     else task_message name uuid state;
          rec_exc_info := None |}).
Proof.
  intros Hn Hu Hr Hnf Hfin. unfold _task_receiver.
  apply tuple_in_In in Hfin. rewrite Hfin.
  rewrite bool_decide_eq_true_2 by (rewrite Hr; eauto).
  unfold dict_get_default. rewrite Hr. cbn [default andb].
  assert (Hshow :
    (task_name ← getitem details "task_name";
     task_uuid ← getitem details "task_uuid";
     msg ← lift (pct_format
                   (gettext ("Task '%(task_name)s' (%(task_uuid)s)"
                             +:+ " transitioned into state '%(state)s'"
                             +:+ " with result %(result)s"))
                   [("task_name", task_name);
                    ("task_uuid", task_uuid);
                    ("state", VStr state); ("result", result)]);
     logger_log (_logger self)
       (if String.eqb state states.FAILURE
        then base_logging.WARNING else base_logging.DEBUG) msg None) w
    = (Return tt,
       with_log w
         {| rec_level := if String.eqb state states.FAILURE
                         then base_logging.WARNING else base_logging.DEBUG;
            rec_msg := task_message_with_result name uuid state result;
            rec_exc_info := None |})).
  { unfold mbind, M_bind.
    rewrite (getitem_Some _ _ _ _ Hn), (getitem_Some _ _ _ _ Hu).
    unfold lift. rewrite pct_format_task_result. reflexivity. }
  destruct (isEnabledFor (_logger self) base_logging.DEBUG
            || String.eqb state states.FAILURE) eqn:Hshown;
    destruct result; try discriminate Hnf;
    first [ exact Hshow | now apply task_plain_emit ].
Qed.

(** X16. A task event whose result is a failure that holds its
    traceback triple, in a finish state: exactly one record, at WARNING,
    with the plain name/uuid/state message and the triple attached as
    [exc_info], whatever the logger answers to [isEnabledFor]. *)
Theorem task_receiver_failure_trace details state name uuid exc_info text w :
  details !! "task_name" = Some name ->
  details !! "task_uuid" = Some uuid ->
  details !! "result" = Some (VFailure (Some exc_info) text) ->
  In state FINISH_STATES ->
  _task_receiver FINISH_STATES self state details w
  = (Return tt,
     with_log w {| rec_level := base_logging.WARNING;
                   rec_msg := task_message name uuid state;
                   rec_exc_info := Some (ExcTuple exc_info) |}).
Proof.
  intros Hn Hu Hr Hfin. unfold _task_receiver.
  apply tuple_in_In in Hfin. rewrite Hfin.
  rewrite bool_decide_eq_true_2 by (rewrite Hr; eauto).
  unfold dict_get_default. rewrite Hr. cbn [default andb id].
  unfold mbind, M_bind.
  rewrite (getitem_Some _ _ _ _ Hn), (getitem_Some _ _ _ _ Hu).
  unfold lift. rewrite pct_format_task. reflexivity.
Qed.

(** X17. A task event whose result is a failure without a traceback
    triple, in a finish state: [tuple(result.exc_info)] raises
    [TypeError] once the message is built, and nothing is logged. *)
Theorem task_receiver_failure_no_triple details state name uuid text w :
  details !! "task_name" = Some name ->
  details !! "task_uuid" = Some uuid ->
  details !! "result" = Some (VFailure None text) ->
  In state FINISH_STATES ->
  _task_receiver FINISH_STATES self state details w
  = (Raise (TypeError "'NoneType' object is not iterable"), w).
Proof.
  intros Hn Hu Hr Hfin. unfold _task_receiver.
  apply tuple_in_In in Hfin. rewrite Hfin.
  rewrite bool_decide_eq_true_2 by (rewrite Hr; eauto).
  unfold dict_get_default. rewrite Hr. cbn [default andb id].
  unfold mbind, M_bind.
  rewrite (getitem_Some _ _ _ _ Hn), (getitem_Some _ _ _ _ Hu).
  unfold lift. rewrite pct_format_task. reflexivity.
Qed.

(** C3. A task event with no result, or in a state outside the finish
    states: one record, at WARNING when the state is REVERTING or
    RETRYING and at DEBUG otherwise, with the plain name/uuid/state
    message and nothing attached. *)
Theorem task_receiver_no_result details state name uuid w :
  details !! "task_name" = Some name ->
  details !! "task_uuid" = Some uuid ->
  details !! "result" = None \/ ~ In state FINISH_STATES ->
  _task_receiver FINISH_STATES self state details w
  = (Return tt,
     with_log w
       {| rec_level := if bool_decide (state = states.REVERTING
                                       \/ state = states.RETRYING)
                       then base_logging.WARNING else base_logging.DEBUG;
          rec_msg := task_message name uuid state;
          rec_exc_info := None |}).
Proof.
  intros Hn Hu Hcase. unfold _task_receiver.
  assert (Hcond : bool_decide (is_Some (details !! "result"))
                  && tuple_in state FINISH_STATES = false).
  { destruct Hcase as [Hr | Hfin].
    - rewrite bool_decide_eq_false_2; [reflexivity |].
      rewrite Hr. intros [? ?]. discriminate.
    - apply tuple_in_not_In in Hfin. rewrite Hfin. apply andb_false_r. }
  rewrite Hcond, tuple_in_pair. now apply task_plain_emit.
Qed.

(** C4, as the code has it. A flow event: one record, at WARNING when
    the state is FAILURE or REVERTED and at DEBUG otherwise, whatever the
    old state; the message names the flow, its uuid, the new state and
    the old state, and where the details hold no old state the text
    [None] stands in its place. *)
Theorem flow_receiver_record details state name uuid w :
  details !! "flow_name" = Some name ->
  details !! "flow_uuid" = Some uuid ->
  _flow_receiver self state details w
  = (Return tt,
     with_log w
       {| rec_level := if bool_decide (state = states.FAILURE
                                       \/ state = states.REVERTED)
                       then base_logging.WARNING else base_logging.DEBUG;
          rec_msg := flow_message name uuid state
                       match details !! "old_state" with
                       | Some old => py_str old
                       | None => "None"
                       end;
          rec_exc_info := None |}).
Proof.
  intros Hn Hu. unfold _flow_receiver, mbind, M_bind.
  rewrite (getitem_Some _ _ _ _ Hn), (getitem_Some _ _ _ _ Hu).
  unfold lift. rewrite pct_format_flow, tuple_in_pair.
  unfold dict_get_default. now destruct (details !! "old_state").
Qed.

End ListenerProperties.

Lemma task_receiver_plain_value_witness :
  _task_receiver finish_states_sample quiet_listener states.SUCCESS
    (task_details (Some (VStr "42"))) world0
  = (Return tt,
     with_log world0
       {| rec_level := base_logging.DEBUG;
          rec_msg := "Task 'create' (t-1) transitioned into state 'SUCCESS'";
          rec_exc_info := None |}).
Proof.
  apply (task_receiver_plain_value finish_states_sample quiet_listener
           (task_details (Some (VStr "42"))) states.SUCCESS
           (VStr "create") (VStr "t-1") (VStr "42") world0);
    try reflexivity.
  right. left. reflexivity.
Defined.

Lemma task_receiver_failure_trace_witness :
  _task_receiver finish_states_sample quiet_listener states.FAILURE
    (task_details (Some sample_failure)) world0
  = (Return tt,
     with_log world0
       {| rec_level := base_logging.WARNING;
          rec_msg := "Task 'create' (t-1) transitioned into state 'FAILURE'";
          rec_exc_info := Some (ExcTuple sample_exc_info) |}).
Proof.
  apply (task_receiver_failure_trace finish_states_sample quiet_listener
           _ states.FAILURE (VStr "create") (VStr "t-1") sample_exc_info
           {| str_text := "Failure: IOError: disk full";
              repr_text := "<Failure>" |} world0);
    try reflexivity.
  left. reflexivity.
Defined.

Lemma task_receiver_failure_no_triple_witness :
  _task_receiver finish_states_sample quiet_listener states.FAILURE
    (task_details (Some bare_failure)) world0
  = (Raise (TypeError "'NoneType' object is not iterable"), world0).
Proof.
  apply (task_receiver_failure_no_triple finish_states_sample quiet_listener
           _ states.FAILURE (VStr "create") (VStr "t-1")
           {| str_text := "Failure: IOError: disk full";
              repr_text := "<Failure>" |} world0);
    try reflexivity.
  left. reflexivity.
Defined.

(** C2. The specification has every failure result in a finish state
    logged once at WARNING with its traceback attached. For a failure
    that holds no traceback triple the receiver does not get that far: on
    the event below, at FAILURE with [task_name] and [task_uuid] present,
    it raises [TypeError] and no record at all is logged. *)
Lemma task_receiver_bare_failure_raises :
  task_details (Some bare_failure) !! "result" = Some bare_failure /\
  is_Failure bare_failure = true /\
  In states.FAILURE finish_states_sample /\
  fst (_task_receiver finish_states_sample quiet_listener states.FAILURE
         (task_details (Some bare_failure)) world0)
  = Raise (TypeError "'NoneType' object is not iterable") /\
  logged (snd (_task_receiver finish_states_sample quiet_listener states.FAILURE
                 (task_details (Some bare_failure)) world0)) = [].
Proof.
  split; [reflexivity |]. split; [reflexivity |].
  split; [now left |]. split; reflexivity.
Qed.

Lemma task_receiver_no_result_witness :
  _task_receiver finish_states_sample quiet_listener states.REVERTING
    (task_details None) world0
  = (Return tt,
     with_log world0
       {| rec_level := base_logging.WARNING;
          rec_msg := "Task 'create' (t-1) transitioned into state 'REVERTING'";
          rec_exc_info := None |}).
Proof.
  apply (task_receiver_no_result finish_states_sample quiet_listener
           (task_details None) states.REVERTING (VStr "create") (VStr "t-1") world0);
    try reflexivity.
  left. reflexivity.
Defined.

Lemma flow_receiver_record_witness :
  _flow_receiver quiet_listener states.FAILURE
    (<["old_state" := VStr "RUNNING"]> flow_details) world0
  = (Return tt,
     with_log world0
       {| rec_level := base_logging.WARNING;
          rec_msg := "Flow 'volume_create' (f-1) transitioned into state 'FAILURE' from state 'RUNNING'";
          rec_exc_info := None |}).
Proof.
  etransitivity.
  - apply (flow_receiver_record quiet_listener
             (<["old_state" := VStr "RUNNING"]> flow_details) states.FAILURE
             (VStr "volume_create") (VStr "f-1") world0);
      reflexivity.
  - vm_compute. reflexivity.
Defined.

(** C4, as the specification words it, fails: with no old state in the
    details the message ends in the text [None]; the word [unknown] occurs
    nowhere in it. *)
Lemma flow_receiver_absent_old_state :
  flow_details !! "old_state" = None /\
  _flow_receiver quiet_listener states.RUNNING flow_details world0
  = (Return tt,
     with_log world0
       {| rec_level := base_logging.DEBUG;
          rec_msg := "Flow 'volume_create' (f-1) transitioned into state 'RUNNING' from state 'None'";
          rec_exc_info := None |}) /\
  forall r, In r (logged (snd (_flow_receiver quiet_listener states.RUNNING
                                 flow_details world0))) ->
            occurs_in "unknown" (rec_msg r) = false.
Proof.
  split; [reflexivity |]. split; [reflexivity |].
  intros r [<- | []]. reflexivity.
Qed.

(** ** cleanReason *)

Lemma string_length_app (a b : string) :
  String.length (a +:+ b) = (String.length a + String.length b)%nat.
Proof.
  induction a as [|x a IH]; [reflexivity |].
  change (S (String.length (a +:+ b)) = S (String.length a + String.length b)).
  now rewrite IH.
Qed.

(** [s[0:n]] is a prefix of [s], of length [n] when [s] is that long. *)
Lemma substring_0_split (n : nat) (s : string) :
  (n <= String.length s)%nat ->
  String.length (substring 0 n s) = n /\
  exists rest, s = substring 0 n s +:+ rest.
Proof.
  revert s. induction n as [|n IH]; intros s Hlen.
  - split; [now destruct s |]. exists s. now destruct s.
  - destruct s as [|c s]; [cbn in Hlen; lia |].
    cbn in Hlen. destruct (IH s) as [Hl [rest Hrest]]; [lia |].
    split.
    + cbn. now rewrite Hl.
    + exists rest. cbn [substring].
      change (String c s = String c (substring 0 n s +:+ rest)).
      now rewrite <- Hrest.
Qed.

(** C5. [_clean_reason] is a function from values to text (so it always
    returns, and touches nothing): [None] gives [???]; a text of at most
    128 characters comes back unchanged; a longer text gives its first 128
    characters followed by three dots, 131 characters in all. *)
Theorem clean_reason_spec (s : string) :
  _clean_reason VNone = "???" /\
  ((String.length s <= 128)%nat -> _clean_reason (VStr s) = s) /\
  ((128 < String.length s)%nat ->
   exists first rest,
     s = first +:+ rest /\
     String.length first = 128%nat /\
     _clean_reason (VStr s) = first +:+ "..." /\
     String.length (_clean_reason (VStr s)) = 131%nat).
Proof.
  split; [reflexivity |]. unfold _clean_reason, REASON_LENGTH. cbn [py_str].
  split; intros Hlen.
  - apply Nat.leb_le in Hlen. now rewrite Hlen.
  - destruct (substring_0_split 128 s) as [Hl [rest Hrest]]; [lia |].
    apply Nat.leb_gt in Hlen. rewrite Hlen.
    exists (substring 0 128 s), rest.
    split; [assumption |]. split; [assumption |]. split; [reflexivity |].
    rewrite string_length_app, Hl. reflexivity.
Qed.

Lemma clean_reason_spec_witness :
  _clean_reason (VStr "disk full") = "disk full" /\
  String.length (_clean_reason (VStr long_reason)) = 131%nat.
Proof.
  split.
  - apply (proj1 (proj2 (clean_reason_spec "disk full"))). cbn. lia.
  - destruct (proj2 (proj2 (clean_reason_spec long_reason)))
      as (first & rest & _ & _ & _ & Hlen); [vm_compute; lia | exact Hlen].
Defined.

(** ** prettyName *)

(** C9, as the code has it. For a callable whose [__name__] can be
    read: bound to an owner whose type name resolves, [make_pretty_name]
    gives the type name, a dot and the callable's name; with no owner it
    gives the callable's name; and when resolving the owner's type name
    raises [AttributeError], the error is caught and the callable's name
    alone comes back. Where the owner lookup can fail in no other way,
    the function returns. *)
Theorem make_pretty_name_result (method : Callable) (name : string) :
  __name__ method = Return name ->
  (forall owner foo,
     __self__ method = Some (Some owner) -> type_name owner = Return foo ->
     make_pretty_name method = Return (foo +:+ "." +:+ name)) /\
  (__self__ method = None \/ __self__ method = Some None ->
   make_pretty_name method = Return name) /\
  (forall owner e,
     __self__ method = Some (Some owner) -> type_name owner = Raise e ->
     is_AttributeError e = true ->
     make_pretty_name method = Return name) /\
  ((forall owner e,
      __self__ method = Some (Some owner) -> type_name owner = Raise e ->
      is_AttributeError e = true) ->
   exists s, make_pretty_name method = Return s).
Proof.
  intros Hname. unfold make_pretty_name, class_name. rewrite Hname.
  split; [| split; [| split]].
  - intros owner foo -> ->. reflexivity.
  - intros [-> | ->]; reflexivity.
  - intros owner e -> -> He. cbn. now rewrite He.
  - intros Hattr. destruct (__self__ method) as [[[[foo | e]]|]|]; cbn; eauto.
    rewrite (Hattr _ e eq_refl eq_refl). cbn. eauto.
Qed.

Lemma make_pretty_name_result_witness :
  make_pretty_name {| __name__ := Return "bar";
                      __self__ := Some (Some {| type_name := Return "Foo" |}) |}
  = Return "Foo.bar" /\
  make_pretty_name {| __name__ := Return "baz"; __self__ := None |} = Return "baz" /\
  make_pretty_name (method_of_failing_owner (AttributeError "__class__"))
  = Return "baz".
Proof.
  split; [| split].
  - apply (proj1 (make_pretty_name_result
             {| __name__ := Return "bar";
                __self__ := Some (Some {| type_name := Return "Foo" |}) |}
             "bar" eq_refl)
             {| type_name := Return "Foo" |} "Foo"); reflexivity.
  - apply (proj1 (proj2 (make_pretty_name_result
             {| __name__ := Return "baz"; __self__ := None |} "baz" eq_refl))).
    left. reflexivity.
  - apply (proj1 (proj2 (proj2 (make_pretty_name_result
             (method_of_failing_owner (AttributeError "__class__")) "baz" eq_refl)))
             {| type_name := Raise (AttributeError "__class__") |}
             (AttributeError "__class__")); reflexivity.
Defined.

(** C9, as the specification words it, fails: [make_pretty_name] raises
    on a callable that has no [__name__], the read being outside the
    [try], and it lets through an owner lookup error that is not an
    [AttributeError]. *)
Lemma make_pretty_name_raises :
  make_pretty_name partial_callable = Raise (AttributeError "__name__") /\
  make_pretty_name (method_of_failing_owner (ValueError "detached instance"))
  = Raise (ValueError "detached instance").
Proof. split; reflexivity. Qed.

(** ** StatusRecoveryHelper *)

Lemma pct_format_update volume_id reason :
  pct_format
    ("Updating volume: %(volume_id)s with %(update)s"
     +:+ " due to: %(reason)s")
    [("volume_id", volume_id);
     ("reason", VStr reason);
     ("update", VDict [("status", VStr "error")])]
  = Return (update_message volume_id reason).
Proof.
  transitivity (Return (update_message volume_id (reason +:+ EmptyString))).
  - reflexivity.
  - now rewrite string_app_nil_r.
Qed.

Lemma pct_format_update_failed volume_id :
  pct_format
    (gettext ("Failed updating volume %(volume_id)s with"
              +:+ " %(update)s"))
    [("volume_id", volume_id);
     ("update", VDict [("status", VStr "error")])]
  = Return (update_failed_message volume_id).
Proof. reflexivity. Qed.

Lemma pct_format_restore source_volid source_status :
  pct_format
    "Restoring source %(source_volid)s status to %(status)s"
    [("status", source_status);
     ("source_volid", source_volid)]
  = Return (restore_message source_volid source_status).
Proof.
  transitivity (Return ("Restoring source " +:+ py_str source_volid
                        +:+ " status to " +:+ (py_str source_status +:+ EmptyString))).
  - reflexivity.
  - now rewrite string_app_nil_r.
Qed.

Lemma pct_format_restore_failed source_volid source_status :
  pct_format
    (gettext ("Failed setting source volume %(source_volid)s back to"
              +:+ " its initial %(source_status)s status"))
    [("source_status", source_status);
     ("source_volid", source_volid)]
  = Return (restore_failed_message source_volid source_status).
Proof. reflexivity. Qed.

Lemma ne_str_false v s : ne_str v s = false <-> v = VStr s.
Proof.
  destruct v; cbn; try (split; intros; discriminate).
  rewrite negb_false_iff, String.eqb_eq. split; congruence.
Qed.

(** A spec typed [source_vol] passes the guard of
    [restore_source_status]. *)
Lemma source_vol_guard (spec : gmap string pyval) :
  spec !! "type" = Some (VStr "source_vol") ->
  not_dict (Some spec) || ne_str (dict_get_default spec "type") "source_vol" = false.
Proof.
  intros Ht. rewrite (dict_get_default_Some _ _ _ Ht). unfold not_dict.
  destruct (Nat.eqb_spec (size spec) 0) as [Hsz | _]; [| reflexivity].
  apply map_size_empty_iff in Hsz. subst spec.
  rewrite lookup_empty in Ht. discriminate.
Qed.

(** Any other spec, or none, does not. *)
Lemma other_type_guard (spec : gmap string pyval) :
  spec !! "type" <> Some (VStr "source_vol") ->
  not_dict (Some spec) || ne_str (dict_get_default spec "type") "source_vol" = true.
Proof.
  intros Ht. apply orb_true_iff. right.
  destruct (ne_str (dict_get_default spec "type") "source_vol") eqn:Hne;
    [reflexivity |].
  apply ne_str_false in Hne. unfold dict_get_default in Hne.
  destruct (spec !! "type") as [v|]; [| discriminate Hne].
  cbn in Hne. subst v. now contradiction Ht.
Qed.

Section HelperProperties.

Variable LOG : Logger.
Variables (context : pyval) (db : Store).

Lemma error_out_volume_run volume_id reason w :
  error_out_volume LOG context db volume_id reason w
  = guarded_attempt db (status_call context volume_id (VStr "error"))
      (update_message volume_id (_clean_reason reason))
      (update_failed_message volume_id) w.
Proof.
  unfold error_out_volume, guarded_attempt, try_except, mbind, M_bind, lift.
  cbv zeta. rewrite pct_format_update.
  unfold logger_debug, logger_log, volume_update. cbn [logged store_calls].
  fold (status_call context volume_id (VStr "error")).
  destruct (volume_update_raises db _) as [e|]; [| reflexivity].
  destruct (is_CinderException e); [| reflexivity].
  rewrite pct_format_update_failed. reflexivity.
Qed.

Lemma restore_source_status_run spec source_volid source_status w :
  spec !! "type" = Some (VStr "source_vol") ->
  spec !! "source_volid" = Some source_volid ->
  spec !! "source_volstatus" = Some source_status ->
  restore_source_status LOG context db (Some spec) w
  = guarded_attempt db (status_call context source_volid source_status)
      (restore_message source_volid source_status)
      (restore_failed_message source_volid source_status) w.
Proof.
  intros Ht Hid Hst.
  unfold restore_source_status, guarded_attempt.
  rewrite (source_vol_guard _ Ht).
  unfold try_except, mbind, M_bind, lift.
  rewrite (getitem_Some _ _ _ _ Hid), (getitem_Some _ _ _ _ Hst).
  rewrite pct_format_restore.
  unfold logger_debug, logger_log, volume_update. cbn [logged store_calls].
  fold (status_call context source_volid source_status).
  destruct (volume_update_raises db _) as [e|]; [| reflexivity].
  destruct (is_CinderException e); [| reflexivity].
  rewrite pct_format_restore_failed. reflexivity.
Qed.

End HelperProperties.

(** C6. Whatever the context, the volume id and the reason,
    [error_out_volume] calls the store once, with the single field
    [status = error]; the cleaned reason appears in the debug line, the
    first record logged, and the only record that may follow is the
    failure line of the handler, which does not mention it. *)
Theorem error_out_volume_single_update (LOG : Logger) (context : pyval) (db : Store)
    (volume_id reason : pyval) (w : World) :
  let w' := snd (error_out_volume LOG context db volume_id reason w) in
  store_calls w'
  = (store_calls w ++ [{| call_context := context; call_volume_id := volume_id;
                          call_values := [("status", VStr "error")] |}])%list /\
  exists rest,
    logged w'
    = (logged w
       ++ debug_record (update_message volume_id (_clean_reason reason)) :: rest)%list /\
    (rest = [] \/
     exists e, rest = [exception_record e (update_failed_message volume_id)]).
Proof.
  cbv zeta. rewrite error_out_volume_run. unfold guarded_attempt.
  destruct (volume_update_raises db _) as [e|].
  - destruct (is_CinderException e); cbn.
    + split; [reflexivity |].
      exists [exception_record e (update_failed_message volume_id)].
      split; [now rewrite <- app_assoc | right; eauto].
    + split; [reflexivity |]. exists []. split; [reflexivity | now left].
  - cbn. split; [reflexivity |]. exists []. split; [reflexivity | now left].
Qed.

(** C7, as the code has it. When the store call raises an error of the
    store's domain category, both helpers log one record at ERROR with
    the caught error attached (not a WARNING) and return normally, having
    called the store once; when it raises any other error, that error
    reaches the caller as it is, after the one store call. *)
Theorem recovery_helpers_store_errors (LOG : Logger) (context : pyval) (db : Store)
    (volume_id reason : pyval) (spec : gmap string pyval)
    (source_volid source_status : pyval) (e : exn) (w : World) :
  spec !! "type" = Some (VStr "source_vol") ->
  spec !! "source_volid" = Some source_volid ->
  spec !! "source_volstatus" = Some source_status ->
  volume_update_raises db (status_call context volume_id (VStr "error")) = Some e ->
  volume_update_raises db (status_call context source_volid source_status) = Some e ->
  (is_CinderException e = true ->
   error_out_volume LOG context db volume_id reason w
   = (Return tt,
      with_log (attempted w (update_message volume_id (_clean_reason reason))
                  (status_call context volume_id (VStr "error")))
        {| rec_level := base_logging.ERROR;
           rec_msg := update_failed_message volume_id;
           rec_exc_info := Some (ExcCurrent e) |}) /\
   restore_source_status LOG context db (Some spec) w
   = (Return tt,
      with_log (attempted w (restore_message source_volid source_status)
                  (status_call context source_volid source_status))
        {| rec_level := base_logging.ERROR;
           rec_msg := restore_failed_message source_volid source_status;
           rec_exc_info := Some (ExcCurrent e) |})) /\
  (is_CinderException e = false ->
   error_out_volume LOG context db volume_id reason w
   = (Raise e,
      attempted w (update_message volume_id (_clean_reason reason))
        (status_call context volume_id (VStr "error"))) /\
   restore_source_status LOG context db (Some spec) w
   = (Raise e,
      attempted w (restore_message source_volid source_status)
        (status_call context source_volid source_status))).
Proof.
  intros Ht Hid Hst Herr Hres.
  rewrite error_out_volume_run.
  rewrite (restore_source_status_run LOG context db spec _ _ w Ht Hid Hst).
  unfold guarded_attempt. rewrite Herr, Hres.
  split; intros ->; split; reflexivity.
Qed.

(** C8. [restore_source_status] returns at once, with no store call and
    no log line, when the spec is absent or its type is not
    [source_vol]; for a spec of that type it calls the store once, on the
    spec's source volume id, with the spec's source status as the only
    field. *)
Theorem restore_source_status_guard (LOG : Logger) (context : pyval) (db : Store)
    (volume_spec : option (gmap string pyval)) (w : World) :
  (volume_spec = None \/
   (exists spec, volume_spec = Some spec /\
                 spec !! "type" <> Some (VStr "source_vol")) ->
   restore_source_status LOG context db volume_spec w = (Return tt, w)) /\
  (forall spec source_volid source_status,
     volume_spec = Some spec ->
     spec !! "type" = Some (VStr "source_vol") ->
     spec !! "source_volid" = Some source_volid ->
     spec !! "source_volstatus" = Some source_status ->
     store_calls (snd (restore_source_status LOG context db volume_spec w))
     = (store_calls w
        ++ [{| call_context := context; call_volume_id := source_volid;
               call_values := [("status", source_status)] |}])%list).
Proof.
  split.
  - intros [-> | (spec & -> & Ht)]; [reflexivity |].
    unfold restore_source_status. now rewrite (other_type_guard _ Ht).
  - intros spec source_volid source_status -> Ht Hid Hst.
    rewrite (restore_source_status_run LOG context db spec _ _ w Ht Hid Hst).
    unfold guarded_attempt.
    destruct (volume_update_raises db _) as [e|]; [| reflexivity].
    destruct (is_CinderException e); reflexivity.
Qed.

(** C10. For a spec of type [source_vol] that lacks [source_volid] or
    [source_volstatus], [restore_source_status] raises the [KeyError] of
    the first missing key to its caller, and neither the store nor the
    logger has been called. *)
Theorem restore_source_status_missing_key (LOG : Logger) (context : pyval)
    (db : Store) (spec : gmap string pyval) (w : World) :
  spec !! "type" = Some (VStr "source_vol") ->
  spec !! "source_volid" = None \/ spec !! "source_volstatus" = None ->
  exists key,
    (key = "source_volid" \/ key = "source_volstatus") /\
    spec !! key = None /\
    restore_source_status LOG context db (Some spec) w = (Raise (KeyError key), w).
Proof.
  intros Ht Hmiss. unfold restore_source_status.
  rewrite (source_vol_guard _ Ht). unfold mbind, M_bind.
  destruct (spec !! "source_volid") as [source_volid|] eqn:Hid.
  - destruct Hmiss as [Hmiss | Hst]; [discriminate Hmiss |].
    exists "source_volstatus". split; [now right |]. split; [assumption |].
    now rewrite (getitem_Some _ _ _ _ Hid), (getitem_None _ _ _ Hst).
  - exists "source_volid". split; [now left |]. split; [assumption |].
    now rewrite (getitem_None _ _ _ Hid).
Qed.

Lemma recovery_helpers_store_errors_witness :
  (fst (error_out_volume quiet_logger sample_context (store_raising domain_error)
          (VStr "vol-1") VNone world0) = Return tt /\
   fst (restore_source_status quiet_logger sample_context (store_raising domain_error)
          (Some source_spec) world0) = Return tt) /\
  (fst (error_out_volume quiet_logger sample_context (store_raising foreign_error)
          (VStr "vol-1") VNone world0) = Raise foreign_error /\
   fst (restore_source_status quiet_logger sample_context (store_raising foreign_error)
          (Some source_spec) world0) = Raise foreign_error).
Proof.
  split.
  - destruct (proj1 (recovery_helpers_store_errors quiet_logger sample_context
                       (store_raising domain_error) (VStr "vol-1") VNone source_spec
                       (VStr "vol-0") (VStr "available") domain_error world0
                       eq_refl eq_refl eq_refl eq_refl eq_refl) eq_refl) as [H1 H2].
    rewrite H1, H2. split; reflexivity.
  - destruct (proj2 (recovery_helpers_store_errors quiet_logger sample_context
                       (store_raising foreign_error) (VStr "vol-1") VNone source_spec
                       (VStr "vol-0") (VStr "available") foreign_error world0
                       eq_refl eq_refl eq_refl eq_refl eq_refl) eq_refl) as [H1 H2].
    rewrite H1, H2. split; reflexivity.
Defined.

(** C7, as the specification words it, fails: on a domain error the
    helpers return normally, but what they log is a DEBUG line and an
    ERROR line; no record is at WARNING. *)
Lemma domain_error_not_logged_as_warning :
  let run1 := error_out_volume quiet_logger sample_context
                (store_raising domain_error) (VStr "vol-1") VNone world0 in
  let run2 := restore_source_status quiet_logger sample_context
                (store_raising domain_error) (Some source_spec) world0 in
  fst run1 = Return tt /\ fst run2 = Return tt /\
  map rec_level (logged (snd run1)) = [base_logging.DEBUG; base_logging.ERROR] /\
  map rec_level (logged (snd run2)) = [base_logging.DEBUG; base_logging.ERROR] /\
  ~ In base_logging.WARNING (map rec_level (logged (snd run1))) /\
  ~ In base_logging.WARNING (map rec_level (logged (snd run2))).
Proof.
  cbv zeta. repeat (split; [reflexivity |]).
  split; vm_compute; intros [H | [H | []]]; discriminate H.
Qed.

Lemma restore_source_status_guard_witness :
  restore_source_status quiet_logger sample_context healthy_store None world0
  = (Return tt, world0) /\
  restore_source_status quiet_logger sample_context healthy_store
    (Some snapshot_spec) world0 = (Return tt, world0) /\
  store_calls (snd (restore_source_status quiet_logger sample_context healthy_store
                      (Some source_spec) world0))
  = [{| call_context := sample_context; call_volume_id := VStr "vol-0";
        call_values := [("status", VStr "available")] |}].
Proof.
  split; [| split].
  - apply (proj1 (restore_source_status_guard quiet_logger sample_context
                    healthy_store None world0)).
    left. reflexivity.
  - apply (proj1 (restore_source_status_guard quiet_logger sample_context
                    healthy_store (Some snapshot_spec) world0)).
    right. exists snapshot_spec. split; [reflexivity |]. vm_compute. discriminate.
  - apply (proj2 (restore_source_status_guard quiet_logger sample_context
                    healthy_store (Some source_spec) world0)
             source_spec (VStr "vol-0") (VStr "available"));
      reflexivity.
Defined.

Lemma restore_source_status_missing_key_witness :
  exists key,
    (key = "source_volid" \/ key = "source_volstatus") /\
    broken_spec !! key = None /\
    restore_source_status quiet_logger sample_context
      (store_raising domain_error) (Some broken_spec) world0
    = (Raise (KeyError key), world0).
Proof.
  apply (restore_source_status_missing_key quiet_logger sample_context
           (store_raising domain_error) broken_spec world0).
  - reflexivity.
  - right. reflexivity.
Defined.

(** * Further properties *)

(** ** The receivers on any event *)

(** Looking up the two task keys, whatever is done with them next. *)
Lemma task_keys_lookup {A} details (k : pyval -> pyval -> M A) w :
  (task_name ← getitem details "task_name";
   task_uuid ← getitem details "task_uuid";
   k task_name task_uuid) w
  = match details !! "task_name", details !! "task_uuid" with
    | Some name, Some uuid => k name uuid w
    | Some _, None => (Raise (KeyError "task_uuid"), w)
    | None, _ => (Raise (KeyError "task_name"), w)
    end.
Proof.
  unfold mbind, M_bind, getitem.
  destruct (details !! "task_name"); [| reflexivity].
  cbn. destruct (details !! "task_uuid"); reflexivity.
Qed.

(** The same for the two flow keys. *)
Lemma flow_keys_lookup {A} details (k : pyval -> pyval -> M A) w :
  (flow_name ← getitem details "flow_name";
   flow_uuid ← getitem details "flow_uuid";
   k flow_name flow_uuid) w
  = match details !! "flow_name", details !! "flow_uuid" with
    | Some name, Some uuid => k name uuid w
    | Some _, None => (Raise (KeyError "flow_uuid"), w)
    | None, _ => (Raise (KeyError "flow_name"), w)
    end.
Proof.
  unfold mbind, M_bind, getitem.
  destruct (details !! "flow_name"); [| reflexivity].
  cbn. destruct (details !! "flow_uuid"); reflexivity.
Qed.

(** Every branch of [_task_receiver] starts with the two lookups. *)
Ltac task_receiver_branches :=
  unfold _task_receiver;
  repeat match goal with
    | |- context [if ?b then _ else _] =>
        match type of b with bool => destruct b end
    | |- context [match dict_get_default ?d ?k with _ => _ end] =>
        destruct (dict_get_default d k)
    end;
  rewrite ?task_keys_lookup.

(** X1. A task event whose details lack [task_name] or [task_uuid]: the
    receiver raises the [KeyError] of the first of the two that is missing,
    in every branch, and nothing has been logged. *)
Theorem task_receiver_missing_key (FINISH_STATES : list string)
    (self : DynamicLogListener) (state : string) (details : gmap string pyval)
    (w : World) :
  details !! "task_name" = None \/ details !! "task_uuid" = None ->
  _task_receiver FINISH_STATES self state details w
  = (Raise (KeyError (match details !! "task_name" with
                     | Some _ => "task_uuid"
                     | None => "task_name"
                     end)),
     w).
Proof.
  intros Hmiss. task_receiver_branches;
    (destruct (details !! "task_name") as [name|]; [| reflexivity];
     destruct Hmiss as [Hn | Hu]; [discriminate Hn | now rewrite Hu]).
Qed.

(** X2. A flow event whose details lack [flow_name] or [flow_uuid]: the
    receiver raises the [KeyError] of the first of the two that is
    missing, and nothing has been logged. *)
Theorem flow_receiver_missing_key (self : DynamicLogListener) (state : string)
    (details : gmap string pyval) (w : World) :
  details !! "flow_name" = None \/ details !! "flow_uuid" = None ->
  _flow_receiver self state details w
  = (Raise (KeyError (match details !! "flow_name" with
                      | Some _ => "flow_uuid"
                      | None => "flow_name"
                      end)),
     w).
Proof.
  intros Hmiss. unfold _flow_receiver. rewrite flow_keys_lookup.
  destruct (details !! "flow_name") as [name|]; [| reflexivity].
  destruct Hmiss as [Hn | Hu]; [discriminate Hn | now rewrite Hu].
Qed.

Lemma task_receiver_missing_key_witness :
  _task_receiver finish_states_sample quiet_listener states.SUCCESS
    (delete "task_uuid" (task_details (Some (VStr "42")))) world0
  = (Raise (KeyError "task_uuid"), world0).
Proof.
  etransitivity.
  - apply (task_receiver_missing_key finish_states_sample quiet_listener
             states.SUCCESS (delete "task_uuid" (task_details (Some (VStr "42"))))
             world0).
    right. reflexivity.
  - reflexivity.
Defined.

Lemma flow_receiver_missing_key_witness :
  _flow_receiver quiet_listener states.RUNNING (delete "flow_name" flow_details) world0
  = (Raise (KeyError "flow_name"), world0).
Proof.
  etransitivity.
  - apply (flow_receiver_missing_key quiet_listener states.RUNNING
             (delete "flow_name" flow_details) world0).
    left. reflexivity.
  - reflexivity.
Defined.

(** What one emission does, once the message is known. *)
Ltac emit_record :=
  unfold mbind, M_bind, lift;
  rewrite ?pct_format_task, ?pct_format_task_result, ?pct_format_flow;
  unfold logger_warn, logger_log; cbn [fst snd logged store_calls py_tuple].

(** X3. Whatever the event, [_task_receiver] leaves the store alone, and
    does one of three things: it returns after logging exactly one record,
    at DEBUG or at WARNING; it raises the [KeyError] of a key the details
    lack, with nothing logged; or, for a failure result without a
    traceback triple in a finish state, it raises [TypeError], with
    nothing logged. *)
Theorem task_receiver_effects (FINISH_STATES : list string)
    (self : DynamicLogListener) (state : string) (details : gmap string pyval)
    (w : World) :
  let run := _task_receiver FINISH_STATES self state details w in
  store_calls (snd run) = store_calls w /\
  ((fst run = Return tt /\
    exists r, logged (snd run) = (logged w ++ [r])%list /\
              (rec_level r = base_logging.DEBUG \/
               rec_level r = base_logging.WARNING)) \/
   (exists key, fst run = Raise (KeyError key) /\
                details !! key = None /\ snd run = w) \/
   (exists text,
      details !! "result" = Some (VFailure None text) /\
      In state FINISH_STATES /\
      fst run = Raise (TypeError "'NoneType' object is not iterable") /\
      snd run = w)).
Proof.
  cbv zeta. unfold _task_receiver, dict_get_default.
  destruct (tuple_in state FINISH_STATES) eqn:Hfin;
    destruct (details !! "result") as [[| | |[i|] t|]|] eqn:Hr;
    cbn [default id]; rewrite ?andb_false_r, ?andb_true_r;
    repeat match goal with
      | |- context [if ?b then _ else _] =>
          match type of b with bool => destruct b end
      end;
    rewrite ?task_keys_lookup;
    (destruct (details !! "task_name") as [name|] eqn:Hn;
     [destruct (details !! "task_uuid") as [uuid|] eqn:Hu |]);
    first
      [ solve [split; [reflexivity |]; right; left; eexists; cbn [fst snd];
               split; [reflexivity | split; [eassumption | reflexivity]]]
      | solve [emit_record; (split; [reflexivity |]); left;
               (split; [reflexivity |]); eexists; (split; [reflexivity |]);
               cbn; tauto]
      | solve [emit_record; (split; [reflexivity |]); right; right; eexists;
               (split; [reflexivity |]);
               (split; [apply tuple_in_In; exact Hfin |]);
               split; reflexivity] ].
Qed.

(** X4. The same for [_flow_receiver]: the store is left alone, and the
    receiver either logs exactly one record, at DEBUG or at WARNING and
    with no [exc_info], or raises the [KeyError] of a missing key with
    nothing logged. *)
Theorem flow_receiver_effects (self : DynamicLogListener) (state : string)
    (details : gmap string pyval) (w : World) :
  let run := _flow_receiver self state details w in
  store_calls (snd run) = store_calls w /\
  ((fst run = Return tt /\
    exists r, logged (snd run) = (logged w ++ [r])%list /\
              rec_exc_info r = None /\
              (rec_level r = base_logging.DEBUG \/
               rec_level r = base_logging.WARNING)) \/
   (exists key, fst run = Raise (KeyError key) /\
                details !! key = None /\ snd run = w)).
Proof.
  cbv zeta. unfold _flow_receiver. rewrite flow_keys_lookup.
  destruct (tuple_in state [states.FAILURE; states.REVERTED]);
    (destruct (details !! "flow_name") as [name|] eqn:Hn;
     [destruct (details !! "flow_uuid") as [uuid|] eqn:Hu |]);
    try (split; [reflexivity |]; right; eexists; cbn [fst snd];
         split; [reflexivity | split; [eassumption | reflexivity]]);
    emit_record; (split; [reflexivity |]); left; (split; [reflexivity |]);
    eexists; (split; [reflexivity |]); cbn; tauto.
Qed.

(** X5. A [result] key that holds [None] is not an absent result. At
    FAILURE, a finish state, a task event with no [result] key is logged
    at DEBUG with the plain message, while one whose [result] is [None] is
    logged at WARNING with [None] shown as the result. *)
Theorem task_receiver_failure_result_key (FINISH_STATES : list string)
    (self : DynamicLogListener) (details : gmap string pyval)
    (name uuid : pyval) (w : World) :
  details !! "task_name" = Some name ->
  details !! "task_uuid" = Some uuid ->
  In states.FAILURE FINISH_STATES ->
  (details !! "result" = None ->
   _task_receiver FINISH_STATES self states.FAILURE details w
   = (Return tt,
      with_log w {| rec_level := base_logging.DEBUG;
                    rec_msg := task_message name uuid states.FAILURE;
                    rec_exc_info := None |})) /\
  (details !! "result" = Some VNone ->
   _task_receiver FINISH_STATES self states.FAILURE details w
   = (Return tt,
      with_log w {| rec_level := base_logging.WARNING;
                    rec_msg := task_message name uuid states.FAILURE
                               +:+ " with result None";
                    rec_exc_info := None |})).
Proof.
  intros Hn Hu Hfin. apply tuple_in_In in Hfin.
  split; intros Hr; unfold _task_receiver, dict_get_default;
    rewrite Hfin, Hr.
  - rewrite bool_decide_eq_false_2 by (intros [? ?]; discriminate).
    cbn [andb]. rewrite task_keys_lookup, Hn, Hu. emit_record. reflexivity.
  - rewrite bool_decide_eq_true_2 by eauto.
    cbn [andb default id]. rewrite orb_true_r.
    rewrite task_keys_lookup, Hn, Hu. emit_record. reflexivity.
Qed.

Lemma task_receiver_failure_result_key_witness :
  _task_receiver finish_states_sample quiet_listener states.FAILURE
    (task_details None) world0
  = (Return tt,
     with_log world0
       {| rec_level := base_logging.DEBUG;
          rec_msg := "Task 'create' (t-1) transitioned into state 'FAILURE'";
          rec_exc_info := None |}) /\
  _task_receiver finish_states_sample quiet_listener states.FAILURE
    (task_details (Some VNone)) world0
  = (Return tt,
     with_log world0
       {| rec_level := base_logging.WARNING;
          rec_msg := "Task 'create' (t-1) transitioned into state 'FAILURE' with result None";
          rec_exc_info := None |}).
Proof.
  split.
  - apply (proj1 (task_receiver_failure_result_key finish_states_sample
                    quiet_listener (task_details None) (VStr "create") (VStr "t-1")
                    world0 eq_refl eq_refl (or_introl eq_refl))).
    reflexivity.
  - apply (proj2 (task_receiver_failure_result_key finish_states_sample
                    quiet_listener (task_details (Some VNone)) (VStr "create")
                    (VStr "t-1") world0 eq_refl eq_refl (or_introl eq_refl))).
    reflexivity.
Defined.

(** X6. An [old_state] that holds [None] and an [old_state] that is absent
    give the same record: the flow receiver cannot tell them apart. *)
Theorem flow_receiver_old_state_none (self : DynamicLogListener) (state : string)
    (details : gmap string pyval) (w : World) :
  _flow_receiver self state (<["old_state" := VNone]> details) w
  = _flow_receiver self state (delete "old_state" details) w.
Proof.
  unfold _flow_receiver. rewrite !flow_keys_lookup.
  unfold dict_get_default.
  rewrite lookup_insert_eq, lookup_delete_eq.
  rewrite !lookup_insert_ne, !lookup_delete_ne by discriminate.
  reflexivity.
Qed.

(** ** What truncation keeps *)

Lemma substring_0_app (a b : string) :
  substring 0 (String.length a) (a +:+ b) = a.
Proof.
  induction a as [|c a IH].
  - now destruct b.
  - change (String c (substring 0 (String.length a) (a +:+ b)) = String c a).
    now rewrite IH.
Qed.

(** A reason other than [None] is cleaned as its text is. *)
Lemma clean_reason_text (reason : pyval) :
  reason <> VNone -> _clean_reason reason = _clean_reason (VStr (py_str reason)).
Proof. destruct reason; [congruence | reflexivity ..]. Qed.

Lemma none_or_value (reason : pyval) : reason = VNone \/ reason <> VNone.
Proof. destruct reason; [now left | right; discriminate ..]. Qed.

(** The two ways a text comes out. *)
Lemma clean_reason_cases (s : string) :
  ((String.length s <= 128)%nat /\ _clean_reason (VStr s) = s) \/
  ((128 < String.length s)%nat /\
   exists first rest,
     s = first +:+ rest /\ String.length first = 128%nat /\
     _clean_reason (VStr s) = first +:+ "...").
Proof.
  unfold _clean_reason, REASON_LENGTH. cbn [py_str].
  destruct (Nat.leb_spec (String.length s) 128) as [Hle | Hgt].
  - left. now split.
  - right. split; [assumption |].
    destruct (substring_0_split 128 s) as [Hl [rest Hrest]]; [lia |].
    exists (substring 0 128 s), rest. now repeat split.
Qed.

(** X7. Whatever the reason, text or not, the cleaned reason is at most
    131 characters long. *)
Theorem clean_reason_length_bound (reason : pyval) :
  (String.length (_clean_reason reason) <= 131)%nat.
Proof.
  destruct (none_or_value reason) as [-> | Hne]; [cbn; lia |].
  rewrite (clean_reason_text _ Hne).
  destruct (clean_reason_cases (py_str reason))
    as [[Hle ->] | [_ (first & rest & _ & Hl & ->)]]; [lia |].
  rewrite string_length_app, Hl. cbn. lia.
Qed.

(** X8. Cleaning is idempotent: a cleaned reason, cleaned again, comes
    back as it is, also when it was truncated and so is longer than 128
    characters. *)
Theorem clean_reason_idempotent (reason : pyval) :
  _clean_reason (VStr (_clean_reason reason)) = _clean_reason reason.
Proof.
  destruct (none_or_value reason) as [-> | Hne]; [reflexivity |].
  rewrite (clean_reason_text _ Hne).
  destruct (clean_reason_cases (py_str reason))
    as [[Hle ->] | [_ (first & rest & _ & Hl & ->)]].
  - destruct (clean_reason_cases (py_str reason))
      as [[_ ->] | [Hgt _]]; [reflexivity | lia].
  - unfold _clean_reason, REASON_LENGTH. cbn [py_str].
    rewrite string_length_app, Hl. cbn [String.length Nat.add Nat.leb].
    replace (Nat.leb (128 + 3) 128) with false by reflexivity.
    rewrite <- Hl at 1. now rewrite substring_0_app.
Qed.

(** X9. Truncation alters none of the characters it keeps: below index
    128 the cleaned reason and the reason's text hold the same
    character. *)
Theorem clean_reason_keeps_prefix (reason : pyval) (i : nat) :
  reason <> VNone ->
  (i < 128)%nat ->
  (i < String.length (py_str reason))%nat ->
  String.get i (_clean_reason reason) = String.get i (py_str reason).
Proof.
  intros Hne Hi Hlen. rewrite (clean_reason_text _ Hne).
  destruct (clean_reason_cases (py_str reason))
    as [[_ ->] | [_ (first & rest & Hs & Hl & ->)]]; [reflexivity |].
  rewrite Hs.
  rewrite <- !append_correct1 by lia. reflexivity.
Qed.

Lemma clean_reason_keeps_prefix_witness :
  String.get 127 (_clean_reason (VStr long_reason)) = Some "x"%char.
Proof.
  etransitivity.
  - apply (clean_reason_keeps_prefix (VStr long_reason) 127).
    + discriminate.
    + lia.
    + vm_compute. lia.
  - vm_compute. reflexivity.
Defined.

(** ** The helpers on any store *)

Lemma dict_get_default_VStr (d : gmap string pyval) k s :
  dict_get_default d k = VStr s -> d !! k = Some (VStr s).
Proof.
  unfold dict_get_default. destruct (d !! k) as [v|]; cbn; [| discriminate].
  now intros ->.
Qed.

(** The three ways [restore_source_status] goes: it returns at once, it
    stops at a missing key, or it makes its one guarded attempt. *)
Lemma restore_source_status_cases (LOG : Logger) (context : pyval) (db : Store)
    (volume_spec : option (gmap string pyval)) (w : World) :
  restore_source_status LOG context db volume_spec w = (Return tt, w) \/
  (exists key,
     restore_source_status LOG context db volume_spec w = (Raise (KeyError key), w)) \/
  (exists spec source_volid source_status,
     volume_spec = Some spec /\
     spec !! "type" = Some (VStr "source_vol") /\
     spec !! "source_volid" = Some source_volid /\
     spec !! "source_volstatus" = Some source_status /\
     restore_source_status LOG context db volume_spec w
     = guarded_attempt db (status_call context source_volid source_status)
         (restore_message source_volid source_status)
         (restore_failed_message source_volid source_status) w).
Proof.
  destruct volume_spec as [spec|]; [| now left].
  destruct (ne_str (dict_get_default spec "type") "source_vol") eqn:Hne.
  { left. unfold restore_source_status. now rewrite Hne, orb_true_r. }
  apply ne_str_false, dict_get_default_VStr in Hne.
  destruct (spec !! "source_volid") as [source_volid|] eqn:Hid;
    [destruct (spec !! "source_volstatus") as [source_status|] eqn:Hst |].
  - right. right. exists spec, source_volid, source_status.
    repeat (split; [auto; fail |]).
    now apply restore_source_status_run.
  - right. left. exists "source_volstatus". unfold restore_source_status.
    rewrite (source_vol_guard _ Hne). unfold mbind, M_bind.
    now rewrite (getitem_Some _ _ _ _ Hid), (getitem_None _ _ _ Hst).
  - right. left. exists "source_volid". unfold restore_source_status.
    rewrite (source_vol_guard _ Hne). unfold mbind, M_bind.
    now rewrite (getitem_None _ _ _ Hid).
Qed.

Lemma guarded_attempt_outcome db c debug_msg failed_msg w :
  fst (guarded_attempt db c debug_msg failed_msg w) = Return tt \/
  exists e, fst (guarded_attempt db c debug_msg failed_msg w) = Raise e /\
            is_CinderException e = false /\
            volume_update_raises db c = Some e.
Proof.
  unfold guarded_attempt.
  destruct (volume_update_raises db c) as [e|]; [| now left].
  destruct (is_CinderException e) eqn:He; [now left |].
  right. exists e. now repeat split.
Qed.

(** X10. Neither helper lets an error of the store's domain category
    reach its caller, whatever the store does and whatever the volume
    spec holds. *)
Theorem helpers_never_raise_domain_error (LOG : Logger) (context : pyval)
    (db : Store) (volume_id reason : pyval)
    (volume_spec : option (gmap string pyval)) (w : World) (e : exn) :
  (fst (error_out_volume LOG context db volume_id reason w) = Raise e \/
   fst (restore_source_status LOG context db volume_spec w) = Raise e) ->
  is_CinderException e = false.
Proof.
  intros [Hrun | Hrun].
  - rewrite error_out_volume_run in Hrun.
    destruct (guarded_attempt_outcome db
                (status_call context volume_id (VStr "error"))
                (update_message volume_id (_clean_reason reason))
                (update_failed_message volume_id) w)
      as [Hret | (e' & He' & Hnd & _)]; congruence.
  - destruct (restore_source_status_cases LOG context db volume_spec w)
      as [Hnoop | [(key & Hkey) | (spec & id & st & _ & _ & _ & _ & Hatt)]].
    + rewrite Hnoop in Hrun. discriminate Hrun.
    + rewrite Hkey in Hrun. cbn in Hrun. now inversion Hrun.
    + rewrite Hatt in Hrun.
      destruct (guarded_attempt_outcome db (status_call context id st)
                  (restore_message id st) (restore_failed_message id st) w)
        as [Hret | (e' & He' & Hnd & _)]; congruence.
Qed.

Lemma helpers_never_raise_domain_error_witness :
  is_CinderException foreign_error = false.
Proof.
  apply (helpers_never_raise_domain_error quiet_logger sample_context
           (store_raising foreign_error) (VStr "vol-1") VNone None world0
           foreign_error).
  left. reflexivity.
Defined.

(** X11. The reason given to [error_out_volume] changes the text of the
    debug line and nothing else: the outcome, the store calls and the
    severities logged are the same for any two reasons. *)
Theorem error_out_volume_reason_irrelevant (LOG : Logger) (context : pyval)
    (db : Store) (volume_id reason1 reason2 : pyval) (w : World) :
  let run1 := error_out_volume LOG context db volume_id reason1 w in
  let run2 := error_out_volume LOG context db volume_id reason2 w in
  fst run1 = fst run2 /\
  store_calls (snd run1) = store_calls (snd run2) /\
  map rec_level (logged (snd run1)) = map rec_level (logged (snd run2)).
Proof.
  cbv zeta. rewrite !error_out_volume_run. unfold guarded_attempt.
  destruct (volume_update_raises db _) as [e|];
    [destruct (is_CinderException e) |];
    cbn [fst snd attempted with_log logged store_calls];
    rewrite ?map_app; now repeat split.
Qed.

(** X12. What the helpers log when they reach the store: a DEBUG line,
    followed by one ERROR line exactly when the store answered with an
    error of its domain category. Nothing is logged at WARNING. *)
Theorem helpers_log_levels (LOG : Logger) (context : pyval) (db : Store)
    (volume_id reason : pyval) (spec : gmap string pyval)
    (source_volid source_status : pyval) (w : World) :
  spec !! "type" = Some (VStr "source_vol") ->
  spec !! "source_volid" = Some source_volid ->
  spec !! "source_volstatus" = Some source_status ->
  (exists news,
     logged (snd (error_out_volume LOG context db volume_id reason w))
     = (logged w ++ news)%list /\
     map rec_level news
     = base_logging.DEBUG ::
       (if raises_domain_error db (status_call context volume_id (VStr "error"))
        then [base_logging.ERROR] else [])) /\
  (exists news,
     logged (snd (restore_source_status LOG context db (Some spec) w))
     = (logged w ++ news)%list /\
     map rec_level news
     = base_logging.DEBUG ::
       (if raises_domain_error db (status_call context source_volid source_status)
        then [base_logging.ERROR] else [])).
Proof.
  intros Ht Hid Hst.
  rewrite error_out_volume_run.
  rewrite (restore_source_status_run LOG context db spec _ _ w Ht Hid Hst).
  unfold guarded_attempt, raises_domain_error.
  split.
  - destruct (volume_update_raises db _) as [e|];
      [destruct (is_CinderException e) |];
      cbn [snd attempted with_log logged];
      rewrite <- ?app_assoc; eexists; (split; [reflexivity |]); reflexivity.
  - destruct (volume_update_raises db _) as [e|];
      [destruct (is_CinderException e) |];
      cbn [snd attempted with_log logged];
      rewrite <- ?app_assoc; eexists; (split; [reflexivity |]); reflexivity.
Qed.

Lemma helpers_log_levels_witness :
  map rec_level
    (logged (snd (restore_source_status quiet_logger sample_context healthy_store
                    (Some source_spec) world0)))
  = [base_logging.DEBUG].
Proof.
  destruct (proj2 (helpers_log_levels quiet_logger sample_context healthy_store
                     (VStr "vol-1") VNone source_spec (VStr "vol-0")
                     (VStr "available") world0 eq_refl eq_refl eq_refl))
    as (news & Hlog & Hlev).
  rewrite Hlog. cbn [world0 logged app]. exact Hlev.
Defined.

(** X13. The recovery path, restoring the source volume and then erroring
    out the new one, against a store that raises nothing but errors of its
    domain category: the path returns normally and has called the store
    exactly twice, for the source volume first. *)
Theorem recovery_sequence_returns (LOG : Logger) (context : pyval) (db : Store)
    (spec : gmap string pyval) (source_volid source_status volume_id reason : pyval)
    (w : World) :
  (forall c e, volume_update_raises db c = Some e -> is_CinderException e = true) ->
  spec !! "type" = Some (VStr "source_vol") ->
  spec !! "source_volid" = Some source_volid ->
  spec !! "source_volstatus" = Some source_status ->
  let run := (restore_source_status LOG context db (Some spec);;
              error_out_volume LOG context db volume_id reason) w in
  fst run = Return tt /\
  store_calls (snd run)
  = (store_calls w ++ [status_call context source_volid source_status;
                       status_call context volume_id (VStr "error")])%list.
Proof.
  intros Hdom Ht Hid Hst. cbv zeta. unfold mbind, M_bind.
  rewrite (restore_source_status_run LOG context db spec _ _ w Ht Hid Hst).
  assert (Hfirst : exists w1,
    guarded_attempt db (status_call context source_volid source_status)
      (restore_message source_volid source_status)
      (restore_failed_message source_volid source_status) w = (Return tt, w1) /\
    store_calls w1
    = (store_calls w ++ [status_call context source_volid source_status])%list).
  { unfold guarded_attempt.
    destruct (volume_update_raises db _) as [e|] eqn:He.
    - rewrite (Hdom _ _ He). eexists. split; reflexivity.
    - eexists. split; reflexivity. }
  destruct Hfirst as (w1 & -> & Hcalls).
  rewrite error_out_volume_run. unfold guarded_attempt.
  destruct (volume_update_raises db _) as [e|] eqn:He;
    [rewrite (Hdom _ _ He) |];
    cbn [fst snd attempted with_log store_calls];
    rewrite Hcalls, <- app_assoc; now split.
Qed.

Lemma recovery_sequence_returns_witness :
  let run := (restore_source_status quiet_logger sample_context
                (store_raising domain_error) (Some source_spec);;
              error_out_volume quiet_logger sample_context
                (store_raising domain_error) (VStr "vol-1") VNone) world0 in
  fst run = Return tt /\
  store_calls (snd run)
  = [status_call sample_context (VStr "vol-0") (VStr "available");
     status_call sample_context (VStr "vol-1") (VStr "error")].
Proof.
  apply (recovery_sequence_returns quiet_logger sample_context
           (store_raising domain_error) source_spec (VStr "vol-0")
           (VStr "available") (VStr "vol-1") VNone world0);
    try reflexivity.
  intros c e He. cbn in He. now inversion He.
Defined.

(** X14. [restore_source_status] reads three keys of the spec and no
    other: two specs that agree on [type], [source_volid] and
    [source_volstatus] give the same outcome, the same log and the same
    store call. *)
Theorem restore_source_status_reads_three_keys (LOG : Logger) (context : pyval)
    (db : Store) (spec1 spec2 : gmap string pyval) (w : World) :
  spec1 !! "type" = spec2 !! "type" ->
  spec1 !! "source_volid" = spec2 !! "source_volid" ->
  spec1 !! "source_volstatus" = spec2 !! "source_volstatus" ->
  restore_source_status LOG context db (Some spec1) w
  = restore_source_status LOG context db (Some spec2) w.
Proof.
  intros Ht Hid Hst.
  assert (Hdef : dict_get_default spec1 "type" = dict_get_default spec2 "type")
    by (unfold dict_get_default; now rewrite Ht).
  unfold restore_source_status. rewrite Hdef.
  destruct (ne_str (dict_get_default spec2 "type") "source_vol") eqn:Hne.
  - now rewrite !orb_true_r.
  - pose proof Hne as Hne'.
    apply ne_str_false, dict_get_default_VStr in Hne'.
    pose proof (source_vol_guard spec2 Hne') as G2.
    rewrite <- Ht in Hne'. pose proof (source_vol_guard spec1 Hne') as G1.
    rewrite Hdef in G1. rewrite Hne in G1, G2.
    rewrite G1, G2. unfold mbind, M_bind, getitem.
    now rewrite Hid, Hst.
Qed.

Lemma restore_source_status_reads_three_keys_witness :
  restore_source_status quiet_logger sample_context healthy_store
    (Some (<["size" := VStr "10"]> source_spec)) world0
  = restore_source_status quiet_logger sample_context healthy_store
      (Some source_spec) world0.
Proof.
  apply (restore_source_status_reads_three_keys quiet_logger sample_context
           healthy_store (<["size" := VStr "10"]> source_spec) source_spec world0);
    reflexivity.
Defined.

(** ** Trace context *)

Lemma app_singleton_inv {A} (l : list A) (x y : A) :
  (l ++ [x])%list = (l ++ [y])%list -> x = y.
Proof. intros H. apply app_inv_head in H. now inversion H. Qed.

Lemma app_singleton_neq {A} (l : list A) (x : A) : l <> (l ++ [x])%list.
Proof.
  intros H. apply (f_equal (@List.length A)) in H.
  rewrite length_app in H. cbn in H. lia.
Qed.

(** X15. The task receiver attaches [exc_info] to failures only: a record
    it logs with [exc_info] set comes from a [misc.Failure] result in a
    finish state, carries that failure's triple, and is at WARNING. *)
Theorem task_receiver_exc_info_only_for_failures (FINISH_STATES : list string)
    (self : DynamicLogListener) (state : string) (details : gmap string pyval)
    (w : World) (r : LogRecord) (x : ExcAttached) :
  logged (snd (_task_receiver FINISH_STATES self state details w))
  = (logged w ++ [r])%list ->
  rec_exc_info r = Some x ->
  exists i t,
    details !! "result" = Some (VFailure (Some i) t) /\
    x = ExcTuple i /\
    rec_level r = base_logging.WARNING /\
    In state FINISH_STATES.
Proof.
  unfold _task_receiver, dict_get_default.
  destruct (tuple_in state FINISH_STATES) eqn:Hfin;
    destruct (details !! "result") as [[| | |[i|] t|]|] eqn:Hr;
    cbn [default id]; rewrite ?andb_false_r, ?andb_true_r;
    repeat match goal with
      | |- context [if ?b then _ else _] =>
          match type of b with bool => destruct b end
      end;
    rewrite ?task_keys_lookup;
    (destruct (details !! "task_name") as [name|];
     [destruct (details !! "task_uuid") as [uuid|] |]);
    try (cbn [snd]; intros Hlog; now apply app_singleton_neq in Hlog);
    emit_record; intros Hlog Hexc;
    try (now apply app_singleton_neq in Hlog);
    apply app_singleton_inv in Hlog; subst r;
    cbn in Hexc; try discriminate Hexc.
  all: inversion Hexc; subst x; exists i, t;
    split; [reflexivity |]; split; [reflexivity |]; split; [reflexivity |];
    apply tuple_in_In; exact Hfin.
Qed.

Lemma task_receiver_exc_info_only_for_failures_witness :
  exists i t,
    task_details (Some sample_failure) !! "result" = Some (VFailure (Some i) t) /\
    ExcTuple sample_exc_info = ExcTuple i /\
    base_logging.WARNING = base_logging.WARNING /\
    In states.FAILURE finish_states_sample.
Proof.
  apply (task_receiver_exc_info_only_for_failures finish_states_sample
           quiet_listener states.FAILURE (task_details (Some sample_failure))
           world0
           {| rec_level := base_logging.WARNING;
              rec_msg := "Task 'create' (t-1) transitioned into state 'FAILURE'";
              rec_exc_info := Some (ExcTuple sample_exc_info) |}
           (ExcTuple sample_exc_info));
    reflexivity.
Defined.

(** ** What make_pretty_name lets through *)

(** X18. [make_pretty_name] catches [AttributeError] from the owner
    lookup and nothing else: an error raised while reading the callable's
    [__name__] reaches the caller, and so does an error of any other
    class raised while resolving the owner's type name. *)
Theorem make_pretty_name_propagates (method : Callable) (e : exn) :
  (__name__ method = Raise e -> make_pretty_name method = Raise e) /\
  (forall name owner,
     __name__ method = Return name ->
     __self__ method = Some (Some owner) ->
     type_name owner = Raise e ->
     is_AttributeError e = false ->
     make_pretty_name method = Raise e).
Proof.
  unfold make_pretty_name, class_name. split.
  - now intros ->.
  - intros name owner -> -> -> He. cbn. now rewrite He.
Qed.

Lemma make_pretty_name_propagates_witness :
  make_pretty_name partial_callable = Raise (AttributeError "__name__").
Proof.
  apply (proj1 (make_pretty_name_propagates partial_callable
                  (AttributeError "__name__"))).
  reflexivity.
Defined.
